(** * Flag evaluation over a financial record (model.py)

    A shallow embedding of [total_revenue], [iscr] and
    [probe_model_5l_profit].  The record is the value produced by
    [json.loads]; Python exceptions are the left summand of ExtLib's
    error monad; the rule functions imported from the sibling module
    [rule] are external calls of a small free monad. *)

From Stdlib Require Import ZArith List String Ascii Bool Lia.
#[local] Set Warnings "-register-all".
From Stdlib Require Import Floats.SpecFloat.
From ExtLib Require Import Structures.Monad Structures.MonadExc.
From ExtLib Require Import Data.Monads.EitherMonad.
Import ListNotations.
Import MonadNotation.
Local Open Scope monad_scope.
Local Open Scope string_scope.
Local Open Scope Z_scope.

(** ** Python values and exceptions *)

(** The exceptions the modelled operations can raise.  [OtherError]
    stands for whatever else an external rule function may raise. *)
Inductive exn : Type :=
| KeyError
| ValueError
| TypeError
| AttributeError
| IndexError
| ZeroDivisionError
| OverflowError
| OtherError (name : string).

(** What [json.loads] builds: [None], [bool], [int] (unbounded), [float]
    (binary64, as a [spec_float]), [str], [list] and [dict].  A dict keeps
    its bindings in insertion order; its keys are strings and [assoc]
    reads the first binding of a key.  A [str] is the sequence of its code
    points, which the model takes below 256. *)
Inductive value : Type :=
| VNone
| VBool (b : bool)
| VInt (n : Z)
| VFloat (f : spec_float)
| VStr (s : string)
| VList (l : list value)
| VDict (d : list (string * value)).

(** Computations that return or raise. *)
Definition outcome : Type -> Type := sum exn.

Fixpoint assoc {A : Type} (k : string) (d : list (string * A)) : option A :=
  match d with
  | [] => None
  | (k', v) :: d' => if String.eqb k k' then Some v else assoc k d'
  end.

Definition keys {A : Type} (d : list (string * A)) : list string :=
  map fst d.

(** ** binary64 arithmetic as Python performs it *)

Module F64.

Definition prec : Z := 53.
Definition emax : Z := 1024.

Definition add : spec_float -> spec_float -> spec_float := SFadd prec emax.
Definition div : spec_float -> spec_float -> spec_float := SFdiv prec emax.

(** The float nearest to an integer (ties to even); an infinity when
    the integer is beyond the finite range. *)
Definition of_Z (n : Z) : spec_float := binary_normalize prec emax n 0 false.

Definition zero : spec_float := S754_zero false.
Definition one : spec_float := Eval cbv in of_Z 1.

(** The float nearest to [a / b], for [a] and [b] positive. *)
Definition quotient (neg : bool) (a b : Z) : spec_float :=
  let '(q, e, l) := SFdiv_core_binary prec emax a 0 b 0 in
  binary_round_aux prec emax neg q e l.

(** The float nearest to [m * 10 ^ e10], signed by [neg]. *)
Definition of_decimal (neg : bool) (m e10 : Z) : spec_float :=
  if m =? 0 then S754_zero neg
  else if 0 <=? e10 then binary_normalize prec emax (cond_Zopp neg (m * 10 ^ e10)) 0 neg
  else quotient neg m (10 ^ (- e10)).

End F64.

(** [PyLong_AsDouble]: an int too large for a float raises. *)
Definition float_of_int (n : Z) : outcome spec_float :=
  match F64.of_Z n with
  | S754_infinity _ => raise OverflowError
  | f => ret f
  end.

(** [int / int]: the correctly rounded quotient, as a float. *)
Definition int_truediv (a b : Z) : outcome spec_float :=
  if b =? 0 then raise ZeroDivisionError
  else
    let neg := xorb (a <? 0) (b <? 0) in
    if a =? 0 then ret (S754_zero neg)
    else
      match F64.quotient neg (Z.abs a) (Z.abs b) with
      | S754_infinity _ => raise OverflowError
      | f => ret f
      end.

(** [float / float]: a zero divisor raises, everything else is IEEE. *)
Definition float_truediv (x y : spec_float) : outcome spec_float :=
  match y with
  | S754_zero _ => raise ZeroDivisionError
  | _ => ret (F64.div x y)
  end.

(** ** [float(str)]

    CPython strips ASCII whitespace, drops underscores that sit between
    two digits, and then reads either an optionally signed [inf],
    [infinity] or [nan] (any case) or a decimal literal; the whole text
    has to be consumed.  In a non-ASCII string the Unicode blanks (here
    U+0085 and U+00A0) are first turned into spaces. *)
Module FloatSyntax.

Definition code (c : ascii) : Z := Z.of_N (N_of_ascii c).

Definition is_digit (c : ascii) : bool := (48 <=? code c) && (code c <=? 57).

Definition is_space (c : ascii) : bool :=
  ((9 <=? code c) && (code c <=? 13)) || (code c =? 32).

Definition is_ascii (c : ascii) : bool := code c <? 128.

(** [_PyUnicode_TransformDecimalAndSpaceToASCII] on code points below
    256: no decimal digit lives in 127..255, so every such character
    other than the two blanks becomes ['?'] and ends the text. *)
Fixpoint transform (l : list ascii) : list ascii :=
  match l with
  | [] => []
  | c :: l' =>
      if code c <? 127 then c :: transform l'
      else if (code c =? 133) || (code c =? 160) then " "%char :: transform l'
      else ["?"%char]
  end.

Definition to_ascii (l : list ascii) : list ascii :=
  if forallb is_ascii l then l else transform l.

Fixpoint drop_spaces (l : list ascii) : list ascii :=
  match l with
  | c :: l' => if is_space c then drop_spaces l' else l
  | [] => []
  end.

(** Trailing blanks go, but never the last remaining character. *)
Definition strip (l : list ascii) : list ascii :=
  match drop_spaces l with
  | [] => []
  | c :: l' => c :: rev (drop_spaces (rev l'))
  end.

(** [_Py_string_to_number_with_underscores]: [prev] is the character
    before the current one. *)
Fixpoint underscores (prev : ascii) (l : list ascii) : option (list ascii) :=
  match l with
  | [] => if Ascii.eqb prev "_" then None else Some []
  | c :: l' =>
      if Ascii.eqb c "_" then
        if is_digit prev then underscores c l' else None
      else if Ascii.eqb prev "_" && negb (is_digit c) then None
      else option_map (cons c) (underscores c l')
  end.

Fixpoint span_digits (l : list ascii) : list ascii * list ascii :=
  match l with
  | c :: l' =>
      if is_digit c then let '(ds, r) := span_digits l' in (c :: ds, r)
      else ([], l)
  | [] => ([], [])
  end.

Definition digits_value (ds : list ascii) : Z :=
  fold_left (fun acc c => 10 * acc + (code c - 48)) ds 0.

Definition sign (l : list ascii) : bool * list ascii :=
  match l with
  | "-"%char :: r => (true, r)
  | "+"%char :: r => (false, r)
  | _ => (false, l)
  end.

Definition lower (c : ascii) : ascii :=
  if (65 <=? code c) && (code c <=? 90)
  then ascii_of_N (N_of_ascii c + 32) else c.

(** [_Py_parse_inf_or_nan], on the text after the sign. *)
Definition inf_or_nan (neg : bool) (l : list ascii) : option spec_float :=
  let s := string_of_list_ascii (map lower l) in
  if String.eqb s "inf" || String.eqb s "infinity" then Some (S754_infinity neg)
  else if String.eqb s "nan" then Some S754_nan
  else None.

(** The exponent part: without a digit after [e] it is not read, and
    the leftover text then fails the parse. *)
Definition exponent (l : list ascii) : Z * list ascii :=
  match l with
  | c :: r =>
      if Ascii.eqb (lower c) "e" then
        let '(eneg, r1) := sign r in
        let '(ds, r2) := span_digits r1 in
        match ds with
        | [] => (0, l)
        | _ => (cond_Zopp eneg (digits_value ds), r2)
        end
      else (0, l)
  | [] => (0, [])
  end.

(** [_Py_dg_strtod], on the text after the sign. *)
Definition decimal (neg : bool) (l : list ascii) : option spec_float :=
  let '(ip, l1) := span_digits l in
  let '(fp, l2) :=
    match l1 with
    | "."%char :: r => span_digits r
    | _ => ([], l1)
    end in
  match (ip ++ fp)%list with
  | [] => None
  | ds =>
      let '(e, l3) := exponent l2 in
      match l3 with
      | [] => Some (F64.of_decimal neg (digits_value ds) (e - Z.of_nat (List.length fp)))
      | _ => None
      end
  end.

Definition parse (s : string) : option spec_float :=
  match underscores "000"%char (strip (to_ascii (list_ascii_of_string s))) with
  | None => None
  | Some l =>
      let '(neg, r) := sign l in
      match decimal neg r with
      | Some f => Some f
      | None => inf_or_nan neg r
      end
  end.

End FloatSyntax.

(** ** The Python operations the accessors use *)

(** [float(v)] *)
Definition py_float (v : value) : outcome value :=
  match v with
  | VFloat f => ret (VFloat f)
  | VInt n => f <- float_of_int n ;; ret (VFloat f)
  | VBool b => ret (VFloat (F64.of_Z (Z.b2z b)))
  | VStr s =>
      match FloatSyntax.parse s with
      | Some f => ret (VFloat f)
      | None => raise ValueError
      end
  | _ => raise TypeError
  end.

(** The numeric tower: [bool] is an [int]; [int] meets [float] as a float. *)
Inductive number : Type :=
| NInt (n : Z)
| NFloat (f : spec_float).

Definition to_number (v : value) : option number :=
  match v with
  | VBool b => Some (NInt (Z.b2z b))
  | VInt n => Some (NInt n)
  | VFloat f => Some (NFloat f)
  | _ => None
  end.

(** [x + y] *)
Definition py_add (x y : value) : outcome value :=
  match x, y with
  | VStr s, VStr t => ret (VStr (s ++ t))
  | VList a, VList b => ret (VList (a ++ b)%list)
  | _, _ =>
      match to_number x, to_number y with
      | Some (NInt a), Some (NInt b) => ret (VInt (a + b))
      | Some (NInt a), Some (NFloat g) =>
          f <- float_of_int a ;; ret (VFloat (F64.add f g))
      | Some (NFloat f), Some (NInt b) =>
          g <- float_of_int b ;; ret (VFloat (F64.add f g))
      | Some (NFloat f), Some (NFloat g) => ret (VFloat (F64.add f g))
      | _, _ => raise TypeError
      end
  end.

(** [x / y] *)
Definition py_truediv (x y : value) : outcome value :=
  match to_number x, to_number y with
  | Some (NInt a), Some (NInt b) => f <- int_truediv a b ;; ret (VFloat f)
  | Some (NInt a), Some (NFloat g) =>
      f <- float_of_int a ;; q <- float_truediv f g ;; ret (VFloat q)
  | Some (NFloat f), Some (NInt b) =>
      g <- float_of_int b ;; q <- float_truediv f g ;; ret (VFloat q)
  | Some (NFloat f), Some (NFloat g) => q <- float_truediv f g ;; ret (VFloat q)
  | _, _ => raise TypeError
  end.

(** [d.get(k, default)]: only a dict has the method. *)
Definition py_get (d : value) (k : string) (default : value) : outcome value :=
  match d with
  | VDict m =>
      match assoc k m with
      | Some v => ret v
      | None => ret default
      end
  | _ => raise AttributeError
  end.

(** The position a sequence index denotes: negative indices count from
    the end. *)
Definition norm_index (len i : Z) : option nat :=
  let j := if i <? 0 then i + len else i in
  if (0 <=? j) && (j <? len) then Some (Z.to_nat j) else None.

Definition seq_item {A : Type} (l : list A) (i : Z) : outcome A :=
  match norm_index (Z.of_nat (List.length l)) i with
  | Some k =>
      match nth_error l k with
      | Some x => ret x
      | None => raise IndexError
      end
  | None => raise IndexError
  end.

(** [c[i]]: a list or a str takes an int (or bool) index; a dict from
    JSON has string keys only, and a list or dict key is unhashable. *)
Definition py_getitem (c i : value) : outcome value :=
  match c with
  | VList l =>
      match i with
      | VInt n => seq_item l n
      | VBool b => seq_item l (Z.b2z b)
      | _ => raise TypeError
      end
  | VStr s =>
      match i with
      | VInt n => ch <- seq_item (list_ascii_of_string s) n ;; ret (VStr (String ch ""))
      | VBool b =>
          ch <- seq_item (list_ascii_of_string s) (Z.b2z b) ;; ret (VStr (String ch ""))
      | _ => raise TypeError
      end
  | VDict d =>
      match i with
      | VStr k =>
          match assoc k d with
          | Some v => ret v
          | None => raise KeyError
          end
      | VList _ | VDict _ => raise TypeError
      | _ => raise KeyError
      end
  | _ => raise TypeError
  end.

(** [try: body except (KeyError, ValueError): return 0.0] *)
Definition except_key_value (e : exn) : outcome value :=
  match e with
  | KeyError | ValueError => ret (VFloat F64.zero)
  | _ => raise e
  end.

(** ** The accessors of model.py *)

Definition total_revenue (data financial_index : value) : outcome value :=
  catch
    (financials <- py_get data "financials" VNone ;;
     financial_entry <- py_getitem financials financial_index ;;
     pnl <- py_get financial_entry "pnl" (VDict []) ;;
     line_items <- py_get pnl "lineItems" (VDict []) ;;
     net_revenue <- py_get line_items "netRevenue" (VInt 0) ;;
     py_float net_revenue)
    except_key_value.

(** [financial_entry.get("pnl", {}).get("lineItems", {}).get(name, 0)] *)
Definition line_item (financial_entry : value) (name : string) : outcome value :=
  pnl <- py_get financial_entry "pnl" (VDict []) ;;
  line_items <- py_get pnl "lineItems" (VDict []) ;;
  py_get line_items name (VInt 0).

Definition iscr (data financial_index : value) : outcome value :=
  catch
    (financials <- py_get data "financials" VNone ;;
     financial_entry <- py_getitem financials financial_index ;;
     profit_before_interest_and_tax <- line_item financial_entry "profitBeforeInterestAndTax" ;;
     depreciation <- line_item financial_entry "depreciation" ;;
     interest_expenses <- line_item financial_entry "interestExpenses" ;;
     s <- py_add profit_before_interest_and_tax depreciation ;;
     numerator <- py_add s (VInt 1) ;;
     denominator <- py_add interest_expenses (VInt 1) ;;
     py_truediv numerator denominator)
    except_key_value.

(** ** The orchestrator and its collaborators

    [latest_financial_index] and the three flag functions live in the
    module [rule], outside this file: a call to one of them is a node of
    the program, answered by whatever implementation the program is run
    against. *)
Inductive call : Type :=
| latest_financial_index (data : value)
| total_revenue_5cr_flag (data financial_index : value)
| borrowing_to_revenue_flag (data financial_index : value)
| iscr_flag (data financial_index : value).

Inductive prog (A : Type) : Type :=
| Return (a : A)
| Invoke (c : call) (k : value -> prog A).

Arguments Return {A} a.
Arguments Invoke {A} c k.

Fixpoint prog_bind {A B : Type} (p : prog A) (f : A -> prog B) : prog B :=
  match p with
  | Return a => f a
  | Invoke c k => Invoke c (fun v => prog_bind (k v) f)
  end.

#[export] Instance Monad_prog : Monad prog :=
  {| ret := @Return; bind := @prog_bind |}.

Definition invoke (c : call) : prog value := Invoke c Return.

Definition probe_model_5l_profit (data : value) : prog value :=
  lastest_financial_index_value <- invoke (latest_financial_index data) ;;
  total_revenue_5cr_flag_value <-
    invoke (total_revenue_5cr_flag data lastest_financial_index_value) ;;
  borrowing_to_revenue_flag_value <-
    invoke (borrowing_to_revenue_flag data lastest_financial_index_value) ;;
  iscr_flag_value <- invoke (iscr_flag data lastest_financial_index_value) ;;
  ret (VDict [("flags",
               VDict [("TOTAL_REVENUE_5CR_FLAG", total_revenue_5cr_flag_value);
                      ("BORROWING_TO_REVENUE_FLAG", borrowing_to_revenue_flag_value);
                      ("ISCR_FLAG", iscr_flag_value)])]).

Definition is_latest_call (c : call) : bool :=
  match c with
  | latest_financial_index _ => true
  | _ => false
  end.

(** The [(data, financial_index)] a flag function is called with. *)
Definition flag_args (c : call) : option (value * value) :=
  match c with
  | latest_financial_index _ => None
  | total_revenue_5cr_flag d i
  | borrowing_to_revenue_flag d i
  | iscr_flag d i => Some (d, i)
  end.

(** Running a program against an implementation of [rule]: [W] is
    whatever state that module keeps, a call returns or raises and may
    change it.  The orchestrator has no handler of its own, so an
    exception of a collaborator ends the run. *)
Section Run.

Variable W : Type.
Variable rules : call -> W -> outcome value * W.

Fixpoint run {A : Type} (p : prog A) (w : W) : outcome A * W :=
  match p with
  | Return a => (inr a, w)
  | Invoke c k =>
      match rules c w with
      | (inr v, w') => run (k v) w'
      | (inl e, w') => (inl e, w')
      end
  end.

(** The calls a run makes, in order. *)
Fixpoint calls {A : Type} (p : prog A) (w : W) : list call :=
  match p with
  | Return _ => []
  | Invoke c k =>
      c :: match rules c w with
           | (inr v, w') => calls (k v) w'
           | (inl _, _) => []
           end
  end.

End Run.

Arguments run {W} rules {A} p w.
Arguments calls {W} rules {A} p w.

(** ** The record shape the claims speak about *)

(** [i] is a valid index of [l]: Python counts negative indices from
    the end. *)
Definition valid_index (l : list value) (i : Z) : Prop :=
  - Z.of_nat (List.length l) <= i < Z.of_nat (List.length l).

(** [entry] is the entry at index [i] of the record's financials list. *)
Definition entry_at (data : value) (i : Z) (entry : value) : Prop :=
  exists d l,
    data = VDict d /\
    assoc "financials" d = Some (VList l) /\
    valid_index l i /\
    nth_error l (Z.to_nat (i mod Z.of_nat (List.length l))) = Some entry.

(** The field [name] of the entry's pnl.lineItems structure: absent when
    the pnl structure, the lineItems structure or the field itself is. *)
Inductive field_of (entry : value) (name : string) : option value -> Prop :=
| pnl_absent e :
    entry = VDict e -> assoc "pnl" e = None ->
    field_of entry name None
| line_items_absent e p :
    entry = VDict e -> assoc "pnl" e = Some (VDict p) ->
    assoc "lineItems" p = None ->
    field_of entry name None
| field_absent e p li :
    entry = VDict e -> assoc "pnl" e = Some (VDict p) ->
    assoc "lineItems" p = Some (VDict li) -> assoc name li = None ->
    field_of entry name None
| field_present e p li v :
    entry = VDict e -> assoc "pnl" e = Some (VDict p) ->
    assoc "lineItems" p = Some (VDict li) -> assoc name li = Some v ->
    field_of entry name (Some v).

(** A missing line item counts as the int 0. *)
Definition or_zero (o : option value) : value :=
  match o with
  | Some v => v
  | None => VInt 0
  end.

(** The ratio as the specification writes it,
    [(profitBeforeInterestAndTax + depreciation + 1) / (interestExpenses + 1)],
    in Python arithmetic. *)
Definition iscr_numerator (pbit dep : value) : outcome value :=
  s <- py_add pbit dep ;; py_add s (VInt 1).

Definition iscr_formula (pbit dep ie : value) : outcome value :=
  n <- iscr_numerator pbit dep ;;
  m <- py_add ie (VInt 1) ;;
  py_truediv n m.

(** Python's [v == n] for an int [n] that a float holds exactly. *)
Definition py_eq_int (v : value) (n : Z) : bool :=
  match v with
  | VInt m => m =? n
  | VBool b => Z.b2z b =? n
  | VFloat f => SFeqb f (F64.of_Z n)
  | _ => false
  end.

(** Sample records. *)
Definition entry_with (items : list (string * value)) : value :=
  VDict [("pnl", VDict [("lineItems", VDict items)])].

Definition record_of (entries : list value) : value :=
  VDict [("financials", VList entries)].

(** A stand-in for the module [rule], to run the orchestrator against:
    the latest entry is the last one, the flags are thresholds on the
    accessors, and the state counts the calls served. *)
Definition threshold (test : spec_float -> bool) (r : outcome value) : outcome value :=
  v <- r ;;
  match v with
  | VFloat f => ret (VBool (test f))
  | _ => raise TypeError
  end.

Definition sample_rules (c : call) (served : nat) : outcome value * nat :=
  (match c with
   | latest_financial_index data =>
       financials <- py_get data "financials" VNone ;;
       match financials with
       | VList l => ret (VInt (Z.of_nat (List.length l) - 1))
       | _ => raise TypeError
       end
   | total_revenue_5cr_flag data i =>
       threshold (SFleb (F64.of_Z 50000000)) (total_revenue data i)
   | borrowing_to_revenue_flag data i =>
       threshold (fun _ => false) (total_revenue data i)
   | iscr_flag data i =>
       threshold (fun f => SFltb f (F64.of_Z 2)) (iscr data i)
   end, S served).

Definition sample_record : value :=
  record_of [entry_with [("netRevenue", VInt 60000000);
                         ("profitBeforeInterestAndTax", VInt 1000000);
                         ("depreciation", VInt 0);
                         ("interestExpenses", VInt 0)]].

(** ** Vocabulary for the further properties *)

(** What each accessor does once it holds the entry: the part of its
    [try] body after [data.get("financials")[financial_index]]. *)
Definition entry_revenue (financial_entry : value) : outcome value :=
  pnl <- py_get financial_entry "pnl" (VDict []) ;;
  line_items <- py_get pnl "lineItems" (VDict []) ;;
  net_revenue <- py_get line_items "netRevenue" (VInt 0) ;;
  py_float net_revenue.

Definition entry_iscr (financial_entry : value) : outcome value :=
  profit_before_interest_and_tax <- line_item financial_entry "profitBeforeInterestAndTax" ;;
  depreciation <- line_item financial_entry "depreciation" ;;
  interest_expenses <- line_item financial_entry "interestExpenses" ;;
  s <- py_add profit_before_interest_and_tax depreciation ;;
  numerator <- py_add s (VInt 1) ;;
  denominator <- py_add interest_expenses (VInt 1) ;;
  py_truediv numerator denominator.

(** Every exception the computation can raise is among [allowed]. *)
Definition raises_within {A : Type} (allowed : list exn) (o : outcome A) : Prop :=
  forall e, o = inl e -> In e allowed.

(** Whatever the computation returns is a float. *)
Definition returns_float (o : outcome value) : Prop :=
  forall r, o = inr r -> exists f, r = VFloat f.

Definition is_dict (v : value) : bool :=
  match v with
  | VDict _ => true
  | _ => false
  end.

Definition is_str (v : value) : bool :=
  match v with
  | VStr _ => true
  | _ => false
  end.

(** The values Python accepts as a sequence index. *)
Definition is_index (v : value) : bool :=
  match v with
  | VInt _ | VBool _ => true
  | _ => false
  end.

(** The values that cannot be subscripted at all. *)
Definition is_scalar (v : value) : bool :=
  match v with
  | VNone | VBool _ | VInt _ | VFloat _ => true
  | _ => false
  end.

(** [data.get("financials")], for a record that is a dict. *)
Definition financials_of (d : list (string * value)) : value :=
  match assoc "financials" d with
  | Some v => v
  | None => VNone
  end.

(** ** Lookups *)

Create HintDb shape.
#[export] Hint Constructors field_of : shape.

(** [entry_at] on a concrete record: the dict and the list are read
    off, the index is compared with the length. *)
Ltac entry_at_by_computation :=
  eexists; eexists;
  split; [reflexivity |];
  split; [reflexivity |];
  split; [unfold valid_index; cbn; lia | reflexivity].


Lemma bind_inr {A B : Type} (a : A) (f : A -> outcome B) :
  bind (inr a : outcome A) f = f a.
Proof. reflexivity. Qed.

Lemma bind_inl {A B : Type} (e : exn) (f : A -> outcome B) :
  bind (inl e : outcome A) f = inl e.
Proof. reflexivity. Qed.

Lemma catch_inr {A : Type} (a : A) (h : exn -> outcome A) :
  catch (inr a : outcome A) h = inr a.
Proof. reflexivity. Qed.

Lemma catch_inl {A : Type} (e : exn) (h : exn -> outcome A) :
  catch (inl e : outcome A) h = h e.
Proof. reflexivity. Qed.

Lemma seq_item_valid (l : list value) (i : Z) (entry : value) :
  valid_index l i ->
  nth_error l (Z.to_nat (i mod Z.of_nat (List.length l))) = Some entry ->
  seq_item l i = inr entry.
Proof.
  unfold valid_index, seq_item, norm_index.
  set (n := Z.of_nat (List.length l)). intros Hi Hnth.
  destruct (Z.ltb_spec i 0) as [Hneg | Hpos].
  - replace (i mod n) with (i + n) in Hnth.
    + replace ((0 <=? i + n) && (i + n <? n)) with true
        by (symmetry; apply andb_true_iff; split; [apply Z.leb_le | apply Z.ltb_lt]; lia).
      now rewrite Hnth.
    + apply (Z.mod_unique i n (-1) (i + n)); [left; lia | lia].
  - rewrite Z.mod_small in Hnth by lia.
    replace ((0 <=? i) && (i <? n)) with true
      by (symmetry; apply andb_true_iff; split; [apply Z.leb_le | apply Z.ltb_lt]; lia).
    now rewrite Hnth.
Qed.

Lemma seq_item_out_of_range {A : Type} (l : list A) (i : Z) :
  i < - Z.of_nat (List.length l) \/ Z.of_nat (List.length l) <= i ->
  seq_item l i = inl IndexError.
Proof.
  unfold seq_item, norm_index. set (n := Z.of_nat (List.length l)). intros Hi.
  destruct (Z.ltb_spec i 0) as [Hneg | Hpos].
  - replace (0 <=? i + n) with false by (symmetry; apply Z.leb_gt; lia).
    reflexivity.
  - replace (i <? n) with false by (symmetry; apply Z.ltb_ge; lia).
    now rewrite andb_false_r.
Qed.

Lemma line_item_field (entry : value) (name : string) (o : option value) :
  field_of entry name o -> line_item entry name = inr (or_zero o).
Proof.
  unfold line_item.
  destruct 1 as [e -> Hp | e p -> Hp Hl | e p li -> Hp Hl Hf | e p li v -> Hp Hl Hf];
    cbn; rewrite Hp; cbn; try rewrite Hl; cbn; try rewrite Hf; reflexivity.
Qed.

(** The shape of an entry fixes the shape seen by every other field. *)
Lemma field_of_total (entry : value) (name name' : string) (o : option value) :
  field_of entry name o -> exists o', field_of entry name' o'.
Proof.
  destruct 1 as [e He Hp | e p He Hp Hl | e p li He Hp Hl Hf | e p li v He Hp Hl Hf];
    try (destruct (assoc name' li) as [v' |] eqn:Hf'); eauto with shape.
Qed.

(** [total_revenue] on an existing, well-shaped entry is the guarded
    conversion of the field. *)
Lemma total_revenue_entry (data : value) (i : Z) (entry : value) (o : option value) :
  entry_at data i entry ->
  field_of entry "netRevenue" o ->
  total_revenue data (VInt i) = catch (py_float (or_zero o)) except_key_value.
Proof.
  intros Hentry Hfield.
  destruct Hentry as (d & l & -> & Hfin & Hi & Hnth).
  pose proof (line_item_field _ _ _ Hfield) as Hitem.
  unfold total_revenue, line_item in *. cbn. rewrite Hfin. cbn.
  rewrite (seq_item_valid _ _ _ Hi Hnth). cbn.
  cbn in Hitem.
  destruct (py_get entry "pnl" (VDict [])) as [e1 | pnl]; [discriminate |].
  cbn in *.
  destruct (py_get pnl "lineItems" (VDict [])) as [e2 | li]; [discriminate |].
  cbn in *. rewrite Hitem. reflexivity.
Qed.

(** [iscr] on an existing, well-shaped entry is the guarded formula. *)
Lemma iscr_entry (data : value) (i : Z) (entry : value) (p d ie : option value) :
  entry_at data i entry ->
  field_of entry "profitBeforeInterestAndTax" p ->
  field_of entry "depreciation" d ->
  field_of entry "interestExpenses" ie ->
  iscr data (VInt i) =
  catch (iscr_formula (or_zero p) (or_zero d) (or_zero ie)) except_key_value.
Proof.
  intros Hentry Hp Hd Hie.
  destruct Hentry as (dd & l & -> & Hfin & Hi & Hnth).
  unfold iscr. cbn -[line_item py_add py_truediv]. rewrite Hfin.
  cbn -[line_item py_add py_truediv].
  rewrite (seq_item_valid _ _ _ Hi Hnth). cbn -[line_item py_add py_truediv].
  rewrite (line_item_field _ _ _ Hp), (line_item_field _ _ _ Hd),
    (line_item_field _ _ _ Hie).
  unfold iscr_formula, iscr_numerator. cbn -[py_add py_truediv].
  destruct (py_add (or_zero p) (or_zero d)) as [e | s]; reflexivity.
Qed.

(** ** Arithmetic facts *)

Lemma py_eq_int_zero (v : value) :
  py_eq_int v 0 = true ->
  v = VInt 0 \/ v = VBool false \/ exists s, v = VFloat (S754_zero s).
Proof.
  destruct v as [| b | n | f | s | l | d]; cbn; try discriminate.
  - destruct b; [discriminate | auto].
  - intros H%Z.eqb_eq. subst. auto.
  - destruct f as [s | s | | s m e]; try discriminate.
    + intros _. right. right. now exists s.
    + destruct s; discriminate.
    + destruct s; discriminate.
Qed.

Lemma SFeqb_finite_eq (f : spec_float) (m : positive) (e : Z) :
  SFeqb f (S754_finite false m e) = true -> f = S754_finite false m e.
Proof.
  unfold SFeqb. destruct f as [s | s | | s m' e']; cbn; try discriminate.
  - destruct s; discriminate.
  - destruct s; [discriminate |].
    destruct (Z.compare_spec e' e) as [-> | _ | _]; try discriminate.
    destruct (Pos.compare_cont Eq m' m) eqn:Hm; try discriminate.
    change (Pos.compare m' m = Eq) in Hm. apply Pos.compare_eq in Hm. now subst.
Qed.

Lemma py_eq_int_nine (v : value) :
  py_eq_int v 9 = true -> v = VInt 9 \/ v = VFloat (F64.of_Z 9).
Proof.
  destruct v as [| b | n | f | s | l | d]; cbn; try discriminate.
  - destruct b; discriminate.
  - intros H%Z.eqb_eq. subst. auto.
  - intros H. right. f_equal. now apply SFeqb_finite_eq.
Qed.

(** Dividing by the int 0 raises whatever number is divided. *)
Lemma py_truediv_int_zero (n : value) :
  (exists a, to_number n = Some a) ->
  py_truediv n (VInt 0) = inl ZeroDivisionError.
Proof.
  intros [a Ha]. unfold py_truediv. rewrite Ha. cbn [to_number].
  destruct a as [k | f]; reflexivity.
Qed.

(** Dividing by a float zero raises once the dividend is a float. *)
Lemma py_truediv_float_zero (n : value) (f : spec_float) (s : bool) :
  py_float n = inr (VFloat f) ->
  (exists a, to_number n = Some a) ->
  py_truediv n (VFloat (S754_zero s)) = inl ZeroDivisionError.
Proof.
  intros Hf [a Ha]. unfold py_truediv. rewrite Ha. cbn [to_number].
  destruct n as [| b | k | g | t | l | d]; cbn in Ha; try discriminate;
    injection Ha as <-.
  - destruct b; reflexivity.
  - cbn in Hf. destruct (float_of_int k) as [e | g]; [discriminate | reflexivity].
  - reflexivity.
Qed.

(** Adding the int 1 yields a number or raises; it never returns
    anything else. *)
Lemma py_add_one_number (s n : value) :
  py_add s (VInt 1) = inr n -> exists a, to_number n = Some a.
Proof.
  destruct s as [| b | k | f | t | l | d]; cbn; try discriminate.
  - intros [= <-]. eexists; reflexivity.
  - intros [= <-]. eexists; reflexivity.
  - intros [= <-]. eexists; reflexivity.
Qed.

(** The arithmetic of the formula raises neither of the two exceptions
    the handler catches. *)
Lemma float_of_int_uncaught (n : Z) (e : exn) :
  float_of_int n = inl e -> e = OverflowError.
Proof.
  unfold float_of_int. destruct (F64.of_Z n); cbn; congruence.
Qed.

Lemma py_add_uncaught (x y : value) (e : exn) :
  py_add x y = inl e -> except_key_value e = inl e.
Proof.
  unfold py_add.
  destruct x as [| b | k | f | t | l | d], y as [| b' | k' | f' | t' | l' | d'];
    cbn; try discriminate; try (intros [= <-]; reflexivity);
    match goal with
    | |- context [float_of_int ?n] =>
        destruct (float_of_int n) eqn:Hn; cbn; try discriminate;
        intros [= <-]; apply float_of_int_uncaught in Hn; now subst
    end.
Qed.

(** A zero denominator never lets the division return. *)
Lemma py_truediv_zero_raises (n z : value) :
  (exists a, to_number n = Some a) ->
  z = VInt 0 \/ z = VFloat F64.zero ->
  exists e, py_truediv n z = inl e /\ except_key_value e = inl e.
Proof.
  intros Hn [-> | ->].
  - exists ZeroDivisionError. split; [now apply py_truediv_int_zero | reflexivity].
  - destruct Hn as [a Ha]. unfold py_truediv. rewrite Ha. cbn [to_number].
    destruct a as [k | f]; cbn.
    + destruct (float_of_int k) as [e | g] eqn:Hk; cbn.
      * exists e. split; [reflexivity |].
        apply float_of_int_uncaught in Hk. now subst.
      * exists ZeroDivisionError. split; reflexivity.
    + exists ZeroDivisionError. split; reflexivity.
Qed.


(** ** The accessors *)

(** C3.  On an existing entry of the financials list, [total_revenue]
    returns the float value of the entry's pnl.lineItems.netRevenue
    field, and 0.0 when the pnl structure, the lineItems structure or
    the field is absent. *)
Theorem total_revenue_returns_net_revenue
    (data : value) (i : Z) (entry : value) (o : option value) :
  entry_at data i entry ->
  field_of entry "netRevenue" o ->
  match o with
  | None => total_revenue data (VInt i) = inr (VFloat F64.zero)
  | Some v =>
      forall f, py_float v = inr (VFloat f) ->
                total_revenue data (VInt i) = inr (VFloat f)
  end.
Proof.
  intros Hentry Hfield.
  rewrite (total_revenue_entry _ _ _ _ Hentry Hfield).
  destruct o as [v |]; cbn [or_zero].
  - intros f ->. reflexivity.
  - reflexivity.
Qed.

Lemma total_revenue_returns_net_revenue_witness :
  total_revenue (record_of [entry_with []; entry_with [("netRevenue", VInt 60000000)]])
                (VInt (-1))
  = inr (VFloat (F64.of_Z 60000000)).
Proof.
  refine (total_revenue_returns_net_revenue
            _ (-1) (entry_with [("netRevenue", VInt 60000000)])
            (Some (VInt 60000000)) _ _ _ eq_refl).
  - entry_at_by_computation.
  - eapply field_present; reflexivity.
Defined.

(** C7.  A netRevenue that is the string "not-a-number" makes
    [total_revenue] return 0.0, not raise. *)
Theorem total_revenue_not_a_number (data : value) (i : Z) (entry : value) :
  entry_at data i entry ->
  field_of entry "netRevenue" (Some (VStr "not-a-number")) ->
  total_revenue data (VInt i) = inr (VFloat F64.zero).
Proof.
  intros Hentry Hfield.
  rewrite (total_revenue_entry _ _ _ _ Hentry Hfield). reflexivity.
Qed.

Lemma total_revenue_not_a_number_witness :
  total_revenue (record_of [entry_with [("netRevenue", VStr "not-a-number")]]) (VInt 0)
  = inr (VFloat F64.zero).
Proof.
  refine (total_revenue_not_a_number
            _ 0 (entry_with [("netRevenue", VStr "not-a-number")]) _ _).
  - entry_at_by_computation.
  - eapply field_present; reflexivity.
Defined.

(** C1, as amended.  On an existing entry whose three line items
    (0 when absent) make the Python expression
    (profitBeforeInterestAndTax + depreciation + 1) / (interestExpenses + 1)
    evaluate, [iscr] returns exactly its value. *)
Theorem iscr_returns_formula
    (data : value) (i : Z) (entry : value) (p d ie : option value) (r : value) :
  entry_at data i entry ->
  field_of entry "profitBeforeInterestAndTax" p ->
  field_of entry "depreciation" d ->
  field_of entry "interestExpenses" ie ->
  iscr_formula (or_zero p) (or_zero d) (or_zero ie) = inr r ->
  iscr data (VInt i) = inr r.
Proof.
  intros Hentry Hp Hd Hie Hr.
  rewrite (iscr_entry _ _ _ _ _ _ Hentry Hp Hd Hie), Hr. reflexivity.
Qed.

Lemma iscr_returns_formula_witness :
  iscr (record_of [entry_with [("profitBeforeInterestAndTax", VInt 999999);
                               ("interestExpenses", VFloat F64.one)]])
       (VInt 0)
  = inr (VFloat (F64.of_Z 500000)).
Proof.
  refine (iscr_returns_formula
            _ 0 (entry_with [("profitBeforeInterestAndTax", VInt 999999);
                             ("interestExpenses", VFloat F64.one)])
            (Some (VInt 999999)) None (Some (VFloat F64.one)) _ _ _ _ _ _).
  - entry_at_by_computation.
  - eapply field_present; reflexivity.
  - eapply field_absent; reflexivity.
  - eapply field_present; reflexivity.
  - vm_compute. reflexivity.
Defined.

(** C1 as stated fails: the entry exists, its interestExpenses is the
    number -1, and [iscr] returns nothing. *)
Lemma iscr_returns_formula_counterexample :
  let entry := entry_with [("profitBeforeInterestAndTax", VInt 9);
                           ("depreciation", VInt 0);
                           ("interestExpenses", VInt (-1))] in
  entry_at (record_of [entry]) 0 entry /\
  iscr (record_of [entry]) (VInt 0) = inl ZeroDivisionError /\
  ~ exists r, iscr (record_of [entry]) (VInt 0) = inr r.
Proof.
  cbv zeta. split; [| split].
  - entry_at_by_computation.
  - reflexivity.
  - intros [r Hr]. discriminate Hr.
Qed.

(** C6.  With profitBeforeInterestAndTax = 0, depreciation = 0 and
    interestExpenses = 0, and likewise with 9, 0 and 9, [iscr] returns
    exactly 1.0. *)
Theorem iscr_is_one
    (data : value) (i : Z) (entry : value) (p d ie : value) :
  entry_at data i entry ->
  field_of entry "profitBeforeInterestAndTax" (Some p) ->
  field_of entry "depreciation" (Some d) ->
  field_of entry "interestExpenses" (Some ie) ->
  (py_eq_int p 0 = true /\ py_eq_int d 0 = true /\ py_eq_int ie 0 = true) \/
  (py_eq_int p 9 = true /\ py_eq_int d 0 = true /\ py_eq_int ie 9 = true) ->
  iscr data (VInt i) = inr (VFloat F64.one).
Proof.
  intros Hentry Hp Hd Hie Hvalues.
  rewrite (iscr_entry _ _ _ _ _ _ Hentry Hp Hd Hie). cbn [or_zero].
  destruct Hvalues as [(Hp0 & Hd0 & Hie0) | (Hp9 & Hd0 & Hie9)].
  - apply py_eq_int_zero in Hp0, Hd0, Hie0.
    destruct Hp0 as [-> | [-> | [[|] ->]]], Hd0 as [-> | [-> | [[|] ->]]],
      Hie0 as [-> | [-> | [[|] ->]]]; reflexivity.
  - apply py_eq_int_nine in Hp9, Hie9. apply py_eq_int_zero in Hd0.
    destruct Hp9 as [-> | ->], Hd0 as [-> | [-> | [[|] ->]]], Hie9 as [-> | ->];
      reflexivity.
Qed.

Lemma iscr_is_one_witness :
  iscr (record_of [entry_with [("profitBeforeInterestAndTax", VInt 0);
                               ("depreciation", VInt 0);
                               ("interestExpenses", VInt 0)];
                   entry_with [("profitBeforeInterestAndTax", VInt 9);
                               ("depreciation", VInt 0);
                               ("interestExpenses", VInt 9)]])
       (VInt 0)
  = inr (VFloat F64.one) /\
  iscr (record_of [entry_with [("profitBeforeInterestAndTax", VInt 0);
                               ("depreciation", VInt 0);
                               ("interestExpenses", VInt 0)];
                   entry_with [("profitBeforeInterestAndTax", VInt 9);
                               ("depreciation", VInt 0);
                               ("interestExpenses", VInt 9)]])
       (VInt 1)
  = inr (VFloat F64.one).
Proof.
  split.
  - refine (iscr_is_one _ 0 _ (VInt 0) (VInt 0) (VInt 0) _ _ _ _ _).
    + entry_at_by_computation.
    + eapply field_present; reflexivity.
    + eapply field_present; reflexivity.
    + eapply field_present; reflexivity.
    + left. repeat split.
  - refine (iscr_is_one _ 1 _ (VInt 9) (VInt 0) (VInt 9) _ _ _ _ _).
    + entry_at_by_computation.
    + eapply field_present; reflexivity.
    + eapply field_present; reflexivity.
    + eapply field_present; reflexivity.
    + right. repeat split.
Defined.

(** C2.  The accessors do raise: a netRevenue that is null makes
    [total_revenue] raise TypeError, and an interestExpenses that is a
    string makes [iscr] raise TypeError; the handler lets both through. *)
Theorem accessors_raise_on_non_numeric_field :
  total_revenue (record_of [entry_with [("netRevenue", VNone)]]) (VInt 0)
  = inl TypeError /\
  iscr (record_of [entry_with [("interestExpenses", VStr "12")]]) (VInt 0)
  = inl TypeError.
Proof. split; reflexivity. Qed.

(** C9.  [iscr] can raise ZeroDivisionError.  When interestExpenses is
    the number -1 the denominator is zero, the handler does not catch
    the error, and [iscr] never returns; the error is the division's as
    soon as the numerator evaluates. *)
Theorem iscr_zero_division :
  (exists data i, iscr data i = inl ZeroDivisionError) /\
  except_key_value ZeroDivisionError = inl ZeroDivisionError /\
  forall (data : value) (i : Z) (entry : value) (p d : option value) (ie : value),
    entry_at data i entry ->
    field_of entry "profitBeforeInterestAndTax" p ->
    field_of entry "depreciation" d ->
    field_of entry "interestExpenses" (Some ie) ->
    ie = VInt (-1) \/ ie = VFloat (F64.of_Z (-1)) ->
    (py_add ie (VInt 1) = inr (VInt 0) \/ py_add ie (VInt 1) = inr (VFloat F64.zero)) /\
    (forall r, iscr data (VInt i) <> inr r) /\
    (forall n, iscr_numerator (or_zero p) (or_zero d) = inr n ->
               ie = VInt (-1) \/ (exists f, py_float n = inr (VFloat f)) ->
               iscr data (VInt i) = inl ZeroDivisionError).
Proof.
  split; [| split].
  - exists (record_of [entry_with [("interestExpenses", VInt (-1))]]), (VInt 0).
    reflexivity.
  - reflexivity.
  - intros data i entry p d ie Hentry Hp Hd Hie Hminus.
    rewrite (iscr_entry _ _ _ _ _ _ Hentry Hp Hd Hie). cbn [or_zero].
    assert (Hden : py_add ie (VInt 1) = inr (VInt 0) \/
                   py_add ie (VInt 1) = inr (VFloat F64.zero))
      by (destruct Hminus as [-> | ->]; [left | right]; reflexivity).
    split; [exact Hden | split].
    + intros r. unfold iscr_formula, iscr_numerator.
      destruct (py_add (or_zero p) (or_zero d)) as [e | s] eqn:Hs.
      * cbn. rewrite (py_add_uncaught _ _ _ Hs). discriminate.
      * rewrite bind_inr.
        destruct (py_add s (VInt 1)) as [e | n] eqn:Hn.
        -- cbn. rewrite (py_add_uncaught _ _ _ Hn). discriminate.
        -- rewrite bind_inr.
           destruct Hden as [-> | ->]; rewrite bind_inr.
           ++ destruct (py_truediv_zero_raises n (VInt 0)
                          (py_add_one_number _ _ Hn) (or_introl eq_refl))
                as (e & -> & He).
              rewrite catch_inl, He. discriminate.
           ++ destruct (py_truediv_zero_raises n (VFloat F64.zero)
                          (py_add_one_number _ _ Hn) (or_intror eq_refl))
                as (e & -> & He).
              rewrite catch_inl, He. discriminate.
    + intros n Hn Hcase. unfold iscr_formula. rewrite Hn, bind_inr.
      assert (Hnum : exists a, to_number n = Some a).
      { unfold iscr_numerator in Hn.
        destruct (py_add (or_zero p) (or_zero d)) as [e | s]; [discriminate |].
        rewrite bind_inr in Hn. exact (py_add_one_number _ _ Hn). }
      destruct Hminus as [-> | ->].
      * change (py_add (VInt (-1)) (VInt 1)) with (inr (VInt 0) : outcome value).
        rewrite bind_inr, (py_truediv_int_zero _ Hnum). reflexivity.
      * destruct Hcase as [Habs | [f Hf]]; [discriminate |].
        change (py_add (VFloat (F64.of_Z (-1))) (VInt 1))
          with (inr (VFloat (S754_zero false)) : outcome value).
        rewrite bind_inr, (py_truediv_float_zero _ _ _ Hf Hnum). reflexivity.
Qed.

(** C10.  When financials is a list and the index lies outside its
    valid range, both accessors raise IndexError: the handler catches
    KeyError and ValueError only. *)
Theorem index_out_of_range_raises
    (data : value) (d : list (string * value)) (l : list value) (i : Z) :
  data = VDict d ->
  assoc "financials" d = Some (VList l) ->
  i < - Z.of_nat (List.length l) \/ Z.of_nat (List.length l) <= i ->
  total_revenue data (VInt i) = inl IndexError /\
  iscr data (VInt i) = inl IndexError /\
  except_key_value IndexError = inl IndexError.
Proof.
  intros -> Hfin Hi. unfold total_revenue, iscr.
  cbn -[line_item py_add py_truediv py_float]. rewrite Hfin.
  cbn -[line_item py_add py_truediv py_float].
  rewrite (seq_item_out_of_range _ _ Hi). repeat split.
Qed.

Lemma index_out_of_range_raises_witness :
  total_revenue (record_of [entry_with []]) (VInt 1) = inl IndexError /\
  iscr (record_of [entry_with []]) (VInt 1) = inl IndexError /\
  except_key_value IndexError = inl IndexError.
Proof.
  refine (index_out_of_range_raises
            (record_of [entry_with []]) [("financials", VList [entry_with []])]
            [entry_with []] 1 eq_refl eq_refl _).
  right. cbn. lia.
Defined.

(** ** The orchestrator *)

Section Orchestrator.

Variable W : Type.
Variable rules : call -> W -> outcome value * W.

Lemma calls_probe (data : value) (w : W) :
  calls rules (probe_model_5l_profit data) w =
  latest_financial_index data ::
  match rules (latest_financial_index data) w with
  | (inr idx, w1) =>
      total_revenue_5cr_flag data idx ::
      match rules (total_revenue_5cr_flag data idx) w1 with
      | (inr _, w2) =>
          borrowing_to_revenue_flag data idx ::
          match rules (borrowing_to_revenue_flag data idx) w2 with
          | (inr _, w3) => [iscr_flag data idx]
          | (inl _, _) => []
          end
      | (inl _, _) => []
      end
  | (inl _, _) => []
  end.
Proof.
  cbn. destruct (rules (latest_financial_index data) w) as [[e | idx] w1];
    [reflexivity |].
  cbn. destruct (rules (total_revenue_5cr_flag data idx) w1) as [[e | v1] w2];
    [reflexivity |].
  cbn. destruct (rules (borrowing_to_revenue_flag data idx) w2) as [[e | v2] w3];
    [reflexivity |].
  cbn. destruct (rules (iscr_flag data idx) w3) as [[e | v3] w4]; reflexivity.
Qed.

End Orchestrator.

(** C4.  When the four collaborators return, the orchestrator returns a
    mapping whose single key is "flags", bound to a mapping with exactly
    the keys TOTAL_REVENUE_5CR_FLAG, BORROWING_TO_REVENUE_FLAG and
    ISCR_FLAG, bound to the results of the three flag functions at
    (record, latest index). *)
Theorem probe_assembles_flags
    (W : Type) (rules : call -> W -> outcome value * W)
    (data : value) (w w1 w2 w3 w4 : W) (idx v1 v2 v3 : value) :
  rules (latest_financial_index data) w = (inr idx, w1) ->
  rules (total_revenue_5cr_flag data idx) w1 = (inr v1, w2) ->
  rules (borrowing_to_revenue_flag data idx) w2 = (inr v2, w3) ->
  rules (iscr_flag data idx) w3 = (inr v3, w4) ->
  exists out flags,
    fst (run rules (probe_model_5l_profit data) w) = inr (VDict out) /\
    keys out = ["flags"] /\
    assoc "flags" out = Some (VDict flags) /\
    keys flags = ["TOTAL_REVENUE_5CR_FLAG"; "BORROWING_TO_REVENUE_FLAG"; "ISCR_FLAG"] /\
    assoc "TOTAL_REVENUE_5CR_FLAG" flags = Some v1 /\
    assoc "BORROWING_TO_REVENUE_FLAG" flags = Some v2 /\
    assoc "ISCR_FLAG" flags = Some v3.
Proof.
  intros Hlatest Hrevenue Hborrowing Hiscr.
  eexists. eexists. split.
  - cbn. rewrite Hlatest. cbn. rewrite Hrevenue. cbn. rewrite Hborrowing. cbn.
    rewrite Hiscr. reflexivity.
  - repeat split.
Qed.

Lemma probe_assembles_flags_witness :
  exists out flags,
    fst (run sample_rules (probe_model_5l_profit sample_record) 0%nat) = inr (VDict out) /\
    keys out = ["flags"] /\
    assoc "flags" out = Some (VDict flags) /\
    keys flags = ["TOTAL_REVENUE_5CR_FLAG"; "BORROWING_TO_REVENUE_FLAG"; "ISCR_FLAG"] /\
    assoc "TOTAL_REVENUE_5CR_FLAG" flags = Some (VBool true) /\
    assoc "BORROWING_TO_REVENUE_FLAG" flags = Some (VBool false) /\
    assoc "ISCR_FLAG" flags = Some (VBool false).
Proof.
  exact (probe_assembles_flags nat sample_rules sample_record
           0%nat 1%nat 2%nat 3%nat 4%nat (VInt 0) (VBool true) (VBool false) (VBool false)
           eq_refl eq_refl eq_refl eq_refl).
Defined.

(** C5.  Every run of the orchestrator calls [latest_financial_index]
    exactly once, first, and every flag function it calls receives the
    record and the index that call returned; when the calls return, the
    three flag functions are each called once with that index. *)
Theorem probe_selects_latest_once
    (W : Type) (rules : call -> W -> outcome value * W) (data : value) (w : W) :
  List.length (filter is_latest_call (calls rules (probe_model_5l_profit data) w)) = 1%nat /\
  hd_error (calls rules (probe_model_5l_profit data) w)
  = Some (latest_financial_index data) /\
  (forall c, In c (calls rules (probe_model_5l_profit data) w) ->
             is_latest_call c = false ->
             exists idx w1,
               rules (latest_financial_index data) w = (inr idx, w1) /\
               flag_args c = Some (data, idx)) /\
  (forall idx w1 v1 w2 v2 w3,
     rules (latest_financial_index data) w = (inr idx, w1) ->
     rules (total_revenue_5cr_flag data idx) w1 = (inr v1, w2) ->
     rules (borrowing_to_revenue_flag data idx) w2 = (inr v2, w3) ->
     calls rules (probe_model_5l_profit data) w =
     [latest_financial_index data; total_revenue_5cr_flag data idx;
      borrowing_to_revenue_flag data idx; iscr_flag data idx]).
Proof.
  rewrite calls_probe.
  destruct (rules (latest_financial_index data) w) as [[e | idx] w1] eqn:Hlatest.
  - repeat split; try reflexivity.
    + intros c [<- | []]. discriminate.
    + discriminate.
  - assert (Hflags :
      forall tail c,
        In c (latest_financial_index data :: tail) ->
        (forall c', In c' tail -> flag_args c' = Some (data, idx)) ->
        is_latest_call c = false ->
        exists idx' w1',
          (inr idx, w1) = (inr idx' : outcome value, w1') /\
          flag_args c = Some (data, idx')).
    { intros tail c [<- | Hin] Htail Hc; [discriminate |].
      exists idx, w1. split; [reflexivity | now apply Htail]. }
    destruct (rules (total_revenue_5cr_flag data idx) w1) as [[e | v1] w2] eqn:Hrevenue;
      [| destruct (rules (borrowing_to_revenue_flag data idx) w2)
           as [[e | v2] w3] eqn:Hborrowing];
      (split; [reflexivity |]); (split; [reflexivity |]); split.
    all: try (intros c Hin; apply (Hflags _ c Hin); cbn;
              intros c' Hc'; repeat destruct Hc' as [<- | Hc']; try reflexivity;
              contradiction).
    + intros ? ? ? ? ? ? [= <- <-]. rewrite Hrevenue. discriminate.
    + intros ? ? ? ? ? ? [= <- <-]. rewrite Hrevenue. intros [= <- <-].
      rewrite Hborrowing. discriminate.
    + intros ? ? ? ? ? ? [= <- <-]. rewrite Hrevenue. intros [= <- <-].
      rewrite Hborrowing. intros [= <- <-]. reflexivity.
Qed.

(** ** Further properties of the accessors *)

Lemma bind_cases {A B : Type} (c : outcome A) (f : A -> outcome B) :
  bind c f = match c with
             | inl e => inl e
             | inr a => f a
             end.
Proof. destruct c; reflexivity. Qed.

Lemma total_revenue_reaches_entry (data : value) (i : Z) (entry : value) :
  entry_at data i entry ->
  total_revenue data (VInt i) = catch (entry_revenue entry) except_key_value.
Proof.
  intros (d & l & -> & Hfin & Hi & Hnth). unfold total_revenue.
  cbn -[py_float]. rewrite Hfin. cbn -[py_float].
  rewrite (seq_item_valid _ _ _ Hi Hnth). reflexivity.
Qed.

Lemma iscr_reaches_entry (data : value) (i : Z) (entry : value) :
  entry_at data i entry ->
  iscr data (VInt i) = catch (entry_iscr entry) except_key_value.
Proof.
  intros (d & l & -> & Hfin & Hi & Hnth). unfold iscr.
  cbn -[line_item py_add py_truediv]. rewrite Hfin.
  cbn -[line_item py_add py_truediv].
  rewrite (seq_item_valid _ _ _ Hi Hnth). reflexivity.
Qed.

(** *** How the two properties pass through [bind] and the handler *)

Lemma raises_within_bind {A B : Type} (allowed : list exn)
    (c : outcome A) (f : A -> outcome B) :
  raises_within allowed c ->
  (forall a, raises_within allowed (f a)) ->
  raises_within allowed (bind c f).
Proof.
  intros Hc Hf e. rewrite bind_cases. destruct c as [e' | a].
  - intros [= <-]. exact (Hc e' eq_refl).
  - apply Hf.
Qed.

Lemma raises_within_weaken {A : Type} (small large : list exn) (o : outcome A) :
  incl small large -> raises_within small o -> raises_within large o.
Proof. intros Hincl Ho e He. apply Hincl, Ho, He. Qed.

Lemma raises_within_catch (allowed : list exn) (c : outcome value) :
  raises_within (KeyError :: ValueError :: allowed) c ->
  raises_within allowed (catch c except_key_value).
Proof.
  intros Hc e. destruct c as [e' | a]; [| discriminate].
  rewrite catch_inl. specialize (Hc e' eq_refl).
  destruct e'; cbn; try discriminate; intros [= <-];
    destruct Hc as [Hk | [Hv | Hin]]; try discriminate; exact Hin.
Qed.

Lemma returns_float_bind {A : Type} (c : outcome A) (f : A -> outcome value) :
  (forall a, returns_float (f a)) -> returns_float (bind c f).
Proof.
  intros Hf r. rewrite bind_cases. destruct c as [e | a]; [discriminate | apply Hf].
Qed.

Lemma returns_float_catch (c : outcome value) :
  returns_float c -> returns_float (catch c except_key_value).
Proof.
  intros Hc r. destruct c as [e | a].
  - rewrite catch_inl. destruct e; cbn; try discriminate.
    + intros [= <-]. now exists F64.zero.
    + intros [= <-]. now exists F64.zero.
  - rewrite catch_inr. apply Hc.
Qed.

(** *** What each operation can raise, and what it can return *)

Ltac among :=
  let x := fresh in let Hx := fresh in
  intros x Hx; cbn in Hx |- *; intuition (subst; auto).

Lemma float_of_int_raises (n : Z) :
  raises_within [OverflowError] (float_of_int n).
Proof. intros e He. left. symmetry. exact (float_of_int_uncaught _ _ He). Qed.

Lemma py_get_raises (d : value) (k : string) (default : value) :
  raises_within [AttributeError] (py_get d k default).
Proof.
  intros e. destruct d; cbn; try (intros [= <-]; now left).
  destruct (assoc k d); discriminate.
Qed.

Lemma line_item_raises (entry : value) (name : string) :
  raises_within [AttributeError] (line_item entry name).
Proof.
  unfold line_item.
  apply raises_within_bind; [apply py_get_raises | intros pnl].
  apply raises_within_bind; [apply py_get_raises | intros li].
  apply py_get_raises.
Qed.

Lemma seq_item_raises {A : Type} (l : list A) (i : Z) :
  raises_within [IndexError] (seq_item l i).
Proof.
  intros e. unfold seq_item.
  destruct (norm_index _ i) as [k |]; [destruct (nth_error l k) |];
    cbn; try discriminate; intros [= <-]; now left.
Qed.

Lemma py_getitem_raises (c i : value) :
  raises_within [KeyError; TypeError; IndexError] (py_getitem c i).
Proof.
  assert (Hseq : forall (A : Type) (l : list A) (n : Z) (f : A -> outcome value),
             (forall a e, f a <> inl e) ->
             raises_within [KeyError; TypeError; IndexError] (bind (seq_item l n) f)).
  { intros A l n f Hf e. rewrite bind_cases.
    destruct (seq_item l n) as [e' | a] eqn:Hitem.
    - intros [= <-]. right. right. exact (seq_item_raises _ _ _ Hitem).
    - intros He. now apply Hf in He. }
  destruct c as [| b | n | f | s | l | d]; try (intros e [= <-]; cbn; auto).
  - destruct i as [| b | n | f | t | l | d]; try (intros e [= <-]; cbn; auto).
    + apply (Hseq _ _ _ (fun ch => ret (VStr (String ch "")))). discriminate.
    + apply (Hseq _ _ _ (fun ch => ret (VStr (String ch "")))). discriminate.
  - destruct i as [| b | n | f | t | l' | d]; try (intros e [= <-]; cbn; auto).
    + eapply raises_within_weaken; [| apply seq_item_raises]. among.
    + eapply raises_within_weaken; [| apply seq_item_raises]. among.
  - destruct i as [| b | n | f | t | l | d']; try (intros e [= <-]; cbn; auto).
    cbn. destruct (assoc t d); intros e; [discriminate | intros [= <-]; cbn; auto].
Qed.

Lemma py_float_raises (v : value) :
  raises_within [ValueError; TypeError; OverflowError] (py_float v).
Proof.
  destruct v as [| b | n | f | s | l | d]; try (intros e [= <-]; cbn; auto).
  - cbn [py_float].
    apply raises_within_bind;
      [eapply raises_within_weaken; [| apply float_of_int_raises]; among
      | intros a e; cbn; discriminate].
  - intros e. cbn. destruct (FloatSyntax.parse s); [discriminate |].
    intros [= <-]. cbn. auto.
Qed.

Lemma py_float_returns_float (v : value) : returns_float (py_float v).
Proof.
  intros r. destruct v as [| b | n | f | s | l | d]; cbn; try discriminate.
  - intros [= <-]. eauto.
  - destruct (float_of_int n) as [e | f]; cbn; [discriminate |].
    intros [= <-]. eauto.
  - intros [= <-]. eauto.
  - destruct (FloatSyntax.parse s) as [f |]; [| discriminate].
    intros [= <-]. eauto.
Qed.

Lemma py_add_raises (x y : value) :
  raises_within [TypeError; OverflowError] (py_add x y).
Proof.
  intros e. unfold py_add.
  destruct x as [| b | k | f | t | l | d], y as [| b' | k' | f' | t' | l' | d'];
    cbn; try discriminate; try (intros [= <-]; auto);
    match goal with
    | |- context [float_of_int ?n] =>
        destruct (float_of_int n) eqn:Hn; cbn; try discriminate;
        intros [= <-]; apply float_of_int_uncaught in Hn; subst; auto
    end.
Qed.

Lemma float_truediv_raises (x y : spec_float) :
  raises_within [ZeroDivisionError] (float_truediv x y).
Proof.
  intros e. destruct y; cbn; try discriminate. intros [= <-]. now left.
Qed.

Lemma int_truediv_raises (a b : Z) :
  raises_within [OverflowError; ZeroDivisionError] (int_truediv a b).
Proof.
  intros e. unfold int_truediv.
  destruct (b =? 0); [intros [= <-]; cbn; auto |].
  destruct (a =? 0); [discriminate |].
  destruct (F64.quotient _ _ _); cbn; try discriminate.
  intros [= <-]. auto.
Qed.

Lemma py_truediv_raises (x y : value) :
  raises_within [TypeError; OverflowError; ZeroDivisionError] (py_truediv x y).
Proof.
  unfold py_truediv.
  assert (Hdiv : forall f g,
             raises_within [TypeError; OverflowError; ZeroDivisionError]
               (q <- float_truediv f g ;; ret (VFloat q))).
  { intros f g. apply raises_within_bind.
    - eapply raises_within_weaken; [| apply float_truediv_raises]. among.
    - intros q e. cbn. discriminate. }
  assert (Hconv : forall n,
             raises_within [TypeError; OverflowError; ZeroDivisionError]
               (float_of_int n)).
  { intros n. eapply raises_within_weaken; [| apply float_of_int_raises]. among. }
  destruct (to_number x) as [[a | f] |], (to_number y) as [[b | g] |];
    try (intros e [= <-]; cbn; auto).
  - apply raises_within_bind.
    + eapply raises_within_weaken; [| apply int_truediv_raises]. among.
    + intros q e. cbn. discriminate.
  - apply raises_within_bind; [apply Hconv | intros f; apply Hdiv].
  - apply raises_within_bind; [apply Hconv | intros g; apply Hdiv].
  - apply Hdiv.
Qed.

Lemma py_truediv_returns_float (x y : value) : returns_float (py_truediv x y).
Proof.
  unfold py_truediv.
  assert (Hret : forall c : outcome spec_float,
             returns_float (q <- c ;; ret (VFloat q))).
  { intros c r. rewrite bind_cases. destruct c as [e | q]; [discriminate |].
    intros [= <-]. eauto. }
  destruct (to_number x) as [[a | f] |], (to_number y) as [[b | g] |];
    try (intros r; discriminate); try apply Hret;
    apply returns_float_bind; intros; apply Hret.
Qed.

(** X1.  Whatever the record and the index, an accessor that returns
    returns a float. *)
Theorem accessors_return_floats (data financial_index : value) :
  returns_float (total_revenue data financial_index) /\
  returns_float (iscr data financial_index).
Proof.
  split.
  - unfold total_revenue. apply returns_float_catch.
    do 5 (apply returns_float_bind; intros ?). apply py_float_returns_float.
  - unfold iscr. apply returns_float_catch.
    do 8 (apply returns_float_bind; intros ?). apply py_truediv_returns_float.
Qed.

(** X2.  Neither accessor ever raises KeyError or ValueError:
    [total_revenue] raises nothing but TypeError, AttributeError,
    IndexError and OverflowError, and [iscr] nothing but these and
    ZeroDivisionError. *)
Theorem accessors_raise_within (data financial_index : value) :
  raises_within [TypeError; AttributeError; IndexError; OverflowError]
    (total_revenue data financial_index) /\
  raises_within [TypeError; AttributeError; IndexError; OverflowError; ZeroDivisionError]
    (iscr data financial_index).
Proof.
  split.
  - unfold total_revenue. apply raises_within_catch.
    apply raises_within_bind;
      [eapply raises_within_weaken; [| apply py_get_raises]; among | intros financials].
    apply raises_within_bind;
      [eapply raises_within_weaken; [| apply py_getitem_raises]; among | intros entry].
    do 3 (apply raises_within_bind;
          [eapply raises_within_weaken; [| apply py_get_raises]; among | intros ?]).
    eapply raises_within_weaken; [| apply py_float_raises]. among.
  - unfold iscr. apply raises_within_catch.
    apply raises_within_bind;
      [eapply raises_within_weaken; [| apply py_get_raises]; among | intros financials].
    apply raises_within_bind;
      [eapply raises_within_weaken; [| apply py_getitem_raises]; among | intros entry].
    do 3 (apply raises_within_bind;
          [eapply raises_within_weaken; [| apply line_item_raises]; among | intros ?]).
    do 3 (apply raises_within_bind;
          [eapply raises_within_weaken; [| apply py_add_raises]; among | intros ?]).
    eapply raises_within_weaken; [| apply py_truediv_raises]. among.
Qed.

(** *** The shape of the record *)

(** X3.  When [financials] is a dict rather than a list, an int index
    is a missing key: the KeyError is caught and both accessors return
    0.0, whatever the dict holds. *)
Theorem accessors_dict_financials_zero
    (data : value) (d m : list (string * value)) (i : Z) :
  data = VDict d ->
  assoc "financials" d = Some (VDict m) ->
  total_revenue data (VInt i) = inr (VFloat F64.zero) /\
  iscr data (VInt i) = inr (VFloat F64.zero).
Proof.
  intros -> Hfin. unfold total_revenue, iscr.
  cbn -[line_item py_add py_truediv py_float]. rewrite Hfin. split; reflexivity.
Qed.

Lemma accessors_dict_financials_zero_witness :
  total_revenue (VDict [("financials", VDict [("0", entry_with [("netRevenue", VInt 7)])])])
                (VInt 0)
  = inr (VFloat F64.zero) /\
  iscr (VDict [("financials", VDict [("0", entry_with [("netRevenue", VInt 7)])])])
       (VInt 0)
  = inr (VFloat F64.zero).
Proof.
  exact (accessors_dict_financials_zero
           _ [("financials", VDict [("0", entry_with [("netRevenue", VInt 7)])])]
           [("0", entry_with [("netRevenue", VInt 7)])] 0 eq_refl eq_refl).
Defined.

(** X4.  A record that is not a dict has no [get]: both accessors
    raise AttributeError, whatever the index. *)
Theorem accessors_non_dict_record (data financial_index : value) :
  is_dict data = false ->
  total_revenue data financial_index = inl AttributeError /\
  iscr data financial_index = inl AttributeError.
Proof.
  intros Hdata. destruct data; try discriminate; split; reflexivity.
Qed.

Lemma accessors_non_dict_record_witness :
  total_revenue (VList [entry_with []]) (VInt 0) = inl AttributeError /\
  iscr (VList [entry_with []]) (VInt 0) = inl AttributeError.
Proof.
  exact (accessors_non_dict_record (VList [entry_with []]) (VInt 0) eq_refl).
Defined.

(** X5.  When the record has no [financials] key, or holds None, a
    bool or a number there, the subscript raises TypeError in both
    accessors, whatever the index. *)
Theorem accessors_unsubscriptable_financials
    (data : value) (d : list (string * value)) (financial_index : value) :
  data = VDict d ->
  is_scalar (financials_of d) = true ->
  total_revenue data financial_index = inl TypeError /\
  iscr data financial_index = inl TypeError.
Proof.
  intros -> Hscalar. unfold total_revenue, iscr, financials_of in *.
  cbn -[line_item py_add py_truediv py_float].
  destruct (assoc "financials" d) as [[| b | n | f | s | l | m] |];
    try discriminate; split; reflexivity.
Qed.

Lemma accessors_unsubscriptable_financials_witness :
  total_revenue (VDict [("balanceSheet", VDict [])]) (VInt 0) = inl TypeError /\
  iscr (VDict [("balanceSheet", VDict [])]) (VInt 0) = inl TypeError.
Proof.
  exact (accessors_unsubscriptable_financials
           _ [("balanceSheet", VDict [])] (VInt 0) eq_refl eq_refl).
Defined.

(** X6.  A list takes only an int or a bool as index: with anything
    else (None, a float, a string, a list, a dict) both accessors raise
    TypeError, even on an empty list. *)
Theorem accessors_non_integer_index
    (data : value) (d : list (string * value)) (l : list value)
    (financial_index : value) :
  data = VDict d ->
  assoc "financials" d = Some (VList l) ->
  is_index financial_index = false ->
  total_revenue data financial_index = inl TypeError /\
  iscr data financial_index = inl TypeError.
Proof.
  intros -> Hfin Hindex. unfold total_revenue, iscr.
  cbn -[line_item py_add py_truediv py_float]. rewrite Hfin.
  destruct financial_index; try discriminate; split; reflexivity.
Qed.

Lemma accessors_non_integer_index_witness :
  total_revenue (record_of [entry_with []]) VNone = inl TypeError /\
  iscr (record_of [entry_with []]) VNone = inl TypeError.
Proof.
  exact (accessors_non_integer_index
           _ [("financials", VList [entry_with []])] [entry_with []] VNone
           eq_refl eq_refl eq_refl).
Defined.

(** X7.  A negative index counts from the end: for [-len <= i < 0] both
    accessors answer at [i] what they answer at [i + len]. *)
Theorem accessors_negative_index
    (data : value) (d : list (string * value)) (l : list value) (i : Z) :
  data = VDict d ->
  assoc "financials" d = Some (VList l) ->
  - Z.of_nat (List.length l) <= i < 0 ->
  total_revenue data (VInt i) = total_revenue data (VInt (i + Z.of_nat (List.length l))) /\
  iscr data (VInt i) = iscr data (VInt (i + Z.of_nat (List.length l))).
Proof.
  intros -> Hfin Hi.
  assert (Hitem : seq_item l i = seq_item l (i + Z.of_nat (List.length l))).
  { unfold seq_item, norm_index.
    replace (i <? 0) with true by (symmetry; apply Z.ltb_lt; lia).
    replace (i + Z.of_nat (List.length l) <? 0) with false
      by (symmetry; apply Z.ltb_ge; lia).
    reflexivity. }
  unfold total_revenue, iscr.
  cbn -[line_item py_add py_truediv py_float]. rewrite Hfin.
  cbn -[line_item py_add py_truediv py_float]. rewrite Hitem. split; reflexivity.
Qed.

Lemma accessors_negative_index_witness :
  total_revenue (record_of [entry_with []; entry_with [("netRevenue", VInt 7)]]) (VInt (-1))
  = total_revenue (record_of [entry_with []; entry_with [("netRevenue", VInt 7)]])
      (VInt (-1 + 2)) /\
  iscr (record_of [entry_with []; entry_with [("netRevenue", VInt 7)]]) (VInt (-1))
  = iscr (record_of [entry_with []; entry_with [("netRevenue", VInt 7)]]) (VInt (-1 + 2)).
Proof.
  refine (accessors_negative_index
            _ [("financials", VList [entry_with []; entry_with [("netRevenue", VInt 7)]])]
            [entry_with []; entry_with [("netRevenue", VInt 7)]] (-1)
            eq_refl eq_refl _).
  cbn. lia.
Defined.

(** X8.  The accessors read nothing but the selected entry: two
    records that hold the same entry, at whatever positions and among
    whatever other entries and keys, get the same answers. *)
Theorem accessors_depend_on_entry_only
    (data data' : value) (i j : Z) (entry : value) :
  entry_at data i entry ->
  entry_at data' j entry ->
  total_revenue data (VInt i) = total_revenue data' (VInt j) /\
  iscr data (VInt i) = iscr data' (VInt j).
Proof.
  intros Hi Hj. split.
  - now rewrite (total_revenue_reaches_entry _ _ _ Hi),
      (total_revenue_reaches_entry _ _ _ Hj).
  - now rewrite (iscr_reaches_entry _ _ _ Hi), (iscr_reaches_entry _ _ _ Hj).
Qed.

Lemma accessors_depend_on_entry_only_witness :
  total_revenue (record_of [entry_with [("netRevenue", VInt 7)]]) (VInt 0)
  = total_revenue (VDict [("name", VStr "acme");
                          ("financials", VList [entry_with [];
                                                entry_with [("netRevenue", VInt 7)]])])
      (VInt 1) /\
  iscr (record_of [entry_with [("netRevenue", VInt 7)]]) (VInt 0)
  = iscr (VDict [("name", VStr "acme");
                 ("financials", VList [entry_with [];
                                       entry_with [("netRevenue", VInt 7)]])])
      (VInt 1).
Proof.
  refine (accessors_depend_on_entry_only
            _ _ 0 1 (entry_with [("netRevenue", VInt 7)]) _ _).
  - entry_at_by_computation.
  - entry_at_by_computation.
Defined.

(** *** The shape of the entry *)

(** X9.  The [{}] defaults stand in for missing keys only.  An entry
    that is not a dict, or whose pnl or lineItems is present but not a
    dict (null, say), makes both accessors raise AttributeError. *)
Theorem accessors_non_dict_structure (data : value) (i : Z) (entry : value) :
  entry_at data i entry ->
  is_dict entry = false \/
  (exists e v, entry = VDict e /\ assoc "pnl" e = Some v /\ is_dict v = false) \/
  (exists e p v, entry = VDict e /\ assoc "pnl" e = Some (VDict p) /\
                 assoc "lineItems" p = Some v /\ is_dict v = false) ->
  total_revenue data (VInt i) = inl AttributeError /\
  iscr data (VInt i) = inl AttributeError.
Proof.
  intros Hentry Hshape.
  rewrite (total_revenue_reaches_entry _ _ _ Hentry), (iscr_reaches_entry _ _ _ Hentry).
  unfold entry_revenue, entry_iscr, line_item.
  destruct Hshape as [Hnot | [(e & v & -> & Hpnl & Hnot) | (e & p & v & -> & Hpnl & Hli & Hnot)]].
  - destruct entry; try discriminate; split; reflexivity.
  - cbn -[py_add py_truediv py_float]. rewrite Hpnl.
    destruct v; try discriminate; split; reflexivity.
  - cbn -[py_add py_truediv py_float]. rewrite Hpnl.
    cbn -[py_add py_truediv py_float]. rewrite Hli.
    destruct v; try discriminate; split; reflexivity.
Qed.

Lemma accessors_non_dict_structure_witness :
  total_revenue (record_of [VDict [("pnl", VNone)]]) (VInt 0) = inl AttributeError /\
  iscr (record_of [VDict [("pnl", VNone)]]) (VInt 0) = inl AttributeError.
Proof.
  refine (accessors_non_dict_structure _ 0 (VDict [("pnl", VNone)]) _ _).
  - entry_at_by_computation.
  - right. left. exists [("pnl", VNone)], VNone. repeat split.
Defined.

(** X10.  On an entry that has none of the three line items [iscr]
    returns 1.0, the ratio of the two added ones, and not the 0.0 of
    its handler. *)
Theorem iscr_without_items_is_one (data : value) (i : Z) (entry : value) :
  entry_at data i entry ->
  field_of entry "profitBeforeInterestAndTax" None ->
  field_of entry "depreciation" None ->
  field_of entry "interestExpenses" None ->
  iscr data (VInt i) = inr (VFloat F64.one).
Proof.
  intros Hentry Hp Hd Hie.
  rewrite (iscr_entry _ _ _ _ _ _ Hentry Hp Hd Hie). reflexivity.
Qed.

Lemma iscr_without_items_is_one_witness :
  iscr (record_of [VDict []]) (VInt 0) = inr (VFloat F64.one).
Proof.
  refine (iscr_without_items_is_one _ 0 (VDict []) _ _ _ _).
  - entry_at_by_computation.
  - eapply pnl_absent; reflexivity.
  - eapply pnl_absent; reflexivity.
  - eapply pnl_absent; reflexivity.
Defined.

Lemma py_add_str_one (s : string) : py_add (VStr s) (VInt 1) = inl TypeError.
Proof. reflexivity. Qed.

Lemma py_add_str_left (s : string) (y : value) :
  py_add (VStr s) y = inl TypeError \/ exists t, py_add (VStr s) y = inr (VStr t).
Proof. destruct y; cbn; eauto. Qed.

Lemma py_add_str_right (x : value) (t : string) :
  py_add x (VStr t) = inl TypeError \/ exists s, py_add x (VStr t) = inr (VStr s).
Proof. destruct x; cbn; eauto. Qed.

(** X11.  [iscr] converts nothing: a line item that is a string, even
    a numeric one, makes it raise.  The error is TypeError when the
    string is profitBeforeInterestAndTax or depreciation; with a string
    interestExpenses it is TypeError or the OverflowError of the
    numerator. *)
Theorem iscr_string_item_raises
    (data : value) (i : Z) (entry : value) (p d ie : option value) :
  entry_at data i entry ->
  field_of entry "profitBeforeInterestAndTax" p ->
  field_of entry "depreciation" d ->
  field_of entry "interestExpenses" ie ->
  (is_str (or_zero p) || is_str (or_zero d) = true ->
   iscr data (VInt i) = inl TypeError) /\
  (is_str (or_zero ie) = true ->
   iscr data (VInt i) = inl TypeError \/ iscr data (VInt i) = inl OverflowError).
Proof.
  intros Hentry Hp Hd Hie.
  rewrite (iscr_entry _ _ _ _ _ _ Hentry Hp Hd Hie).
  unfold iscr_formula, iscr_numerator.
  generalize (or_zero p) (or_zero d) (or_zero ie). clear. intros p d ie. split.
  - intros Hstr. apply orb_true_iff in Hstr.
    assert (Hsum : py_add p d = inl TypeError \/ exists t, py_add p d = inr (VStr t)).
    { destruct Hstr as [Hs | Hs].
      - destruct p; try discriminate. apply py_add_str_left.
      - destruct d; try discriminate. apply py_add_str_right. }
    destruct Hsum as [-> | [t ->]]; reflexivity.
  - intros Hs. destruct ie as [| | | | s | |]; try discriminate.
    destruct (py_add p d) as [e | sum] eqn:Hsum.
    + destruct (py_add_raises _ _ _ Hsum) as [<- | [<- | []]]; auto.
    + rewrite bind_inr.
      destruct (py_add sum (VInt 1)) as [e | n] eqn:Hn.
      * destruct (py_add_raises _ _ _ Hn) as [<- | [<- | []]]; auto.
      * rewrite bind_inr, py_add_str_one. auto.
Qed.

Lemma iscr_string_item_raises_witness :
  iscr (record_of [entry_with [("profitBeforeInterestAndTax", VStr "12")]]) (VInt 0)
  = inl TypeError.
Proof.
  refine (proj1 (iscr_string_item_raises
                   _ 0 (entry_with [("profitBeforeInterestAndTax", VStr "12")])
                   (Some (VStr "12")) None None _ _ _ _) eq_refl).
  - entry_at_by_computation.
  - eapply field_present; reflexivity.
  - eapply field_absent; reflexivity.
  - eapply field_absent; reflexivity.
Defined.





(** ** Further properties of the orchestrator *)

(** X13.  The orchestrator handles nothing and raises nothing of its
    own: it raises [e] exactly when one of its four calls, each made in
    the state the previous one left and the flag calls with the index
    [latest_financial_index] returned, is the first to raise, and
    raises [e]; the calls made are then those up to that one, so no
    later rule function is called. *)
Theorem probe_stops_at_first_failure
    (W : Type) (rules : call -> W -> outcome value * W)
    (data : value) (w : W) (e : exn) :
  fst (run rules (probe_model_5l_profit data) w) = inl e <->
  (exists w1,
     rules (latest_financial_index data) w = (inl e, w1) /\
     calls rules (probe_model_5l_profit data) w = [latest_financial_index data]) \/
  (exists idx w1 w2,
     rules (latest_financial_index data) w = (inr idx, w1) /\
     rules (total_revenue_5cr_flag data idx) w1 = (inl e, w2) /\
     calls rules (probe_model_5l_profit data) w =
     [latest_financial_index data; total_revenue_5cr_flag data idx]) \/
  (exists idx w1 v1 w2 w3,
     rules (latest_financial_index data) w = (inr idx, w1) /\
     rules (total_revenue_5cr_flag data idx) w1 = (inr v1, w2) /\
     rules (borrowing_to_revenue_flag data idx) w2 = (inl e, w3) /\
     calls rules (probe_model_5l_profit data) w =
     [latest_financial_index data; total_revenue_5cr_flag data idx;
      borrowing_to_revenue_flag data idx]) \/
  (exists idx w1 v1 w2 v2 w3 w4,
     rules (latest_financial_index data) w = (inr idx, w1) /\
     rules (total_revenue_5cr_flag data idx) w1 = (inr v1, w2) /\
     rules (borrowing_to_revenue_flag data idx) w2 = (inr v2, w3) /\
     rules (iscr_flag data idx) w3 = (inl e, w4) /\
     calls rules (probe_model_5l_profit data) w =
     [latest_financial_index data; total_revenue_5cr_flag data idx;
      borrowing_to_revenue_flag data idx; iscr_flag data idx]).
Proof.
  rewrite calls_probe. cbn.
  destruct (rules (latest_financial_index data) w) as [[e0 | idx] w1] eqn:Hlatest; cbn.
  { split.
    - intros [= <-]. left. now exists w1.
    - intros [(? & ? & _) | [(? & ? & ? & ? & _) |
               [(? & ? & ? & ? & ? & ? & _) | (? & ? & ? & ? & ? & ? & ? & ? & _)]]];
        congruence. }
  destruct (rules (total_revenue_5cr_flag data idx) w1) as [[e1 | v1] w2] eqn:Hrevenue; cbn.
  { split.
    - intros [= <-]. right. left. now exists idx, w1, w2.
    - intros [(? & ? & _) | [(? & ? & ? & ? & ? & _) |
               [(? & ? & ? & ? & ? & ? & ? & _) |
                (? & ? & ? & ? & ? & ? & ? & ? & ? & _)]]];
        congruence. }
  destruct (rules (borrowing_to_revenue_flag data idx) w2) as [[e2 | v2] w3] eqn:Hborrowing;
    cbn.
  { split.
    - intros [= <-]. right. right. left. now exists idx, w1, v1, w2, w3.
    - intros [(? & ? & _) | [(? & ? & ? & ? & ? & _) |
               [(? & ? & ? & ? & ? & ? & ? & ? & _) |
                (? & ? & ? & ? & ? & ? & ? & ? & ? & ? & _)]]];
        congruence. }
  destruct (rules (iscr_flag data idx) w3) as [[e3 | v3] w4] eqn:Hiscr; cbn.
  { split.
    - intros [= <-]. right. right. right. now exists idx, w1, v1, w2, v2, w3, w4.
    - intros [(? & ? & _) | [(? & ? & ? & ? & ? & _) |
               [(? & ? & ? & ? & ? & ? & ? & ? & _) |
                (? & ? & ? & ? & ? & ? & ? & ? & ? & ? & ? & _)]]];
        congruence. }
  split.
  - discriminate.
  - intros [(? & ? & _) | [(? & ? & ? & ? & ? & _) |
             [(? & ? & ? & ? & ? & ? & ? & ? & _) |
              (? & ? & ? & ? & ? & ? & ? & ? & ? & ? & ? & _)]]];
      congruence.
Qed.

(** X14.  When the orchestrator returns, it has made exactly four
    calls and its output is the mapping flags with the three fixed keys
    in their fixed order. *)
Theorem probe_returns_after_four_calls
    (W : Type) (rules : call -> W -> outcome value * W)
    (data : value) (w : W) (r : value) :
  fst (run rules (probe_model_5l_profit data) w) = inr r ->
  List.length (calls rules (probe_model_5l_profit data) w) = 4%nat /\
  exists v1 v2 v3,
    r = VDict [("flags", VDict [("TOTAL_REVENUE_5CR_FLAG", v1);
                                ("BORROWING_TO_REVENUE_FLAG", v2);
                                ("ISCR_FLAG", v3)])].
Proof.
  rewrite calls_probe. cbn.
  destruct (rules (latest_financial_index data) w) as [[e | idx] w1];
    [discriminate |]. cbn.
  destruct (rules (total_revenue_5cr_flag data idx) w1) as [[e | v1] w2];
    [discriminate |]. cbn.
  destruct (rules (borrowing_to_revenue_flag data idx) w2) as [[e | v2] w3];
    [discriminate |]. cbn.
  destruct (rules (iscr_flag data idx) w3) as [[e | v3] w4]; [discriminate |]. cbn.
  intros [= <-]. split; [reflexivity | now exists v1, v2, v3].
Qed.

Lemma probe_returns_after_four_calls_witness :
  List.length (calls sample_rules (probe_model_5l_profit sample_record) 0%nat) = 4%nat /\
  exists v1 v2 v3,
    VDict [("flags", VDict [("TOTAL_REVENUE_5CR_FLAG", VBool true);
                            ("BORROWING_TO_REVENUE_FLAG", VBool false);
                            ("ISCR_FLAG", VBool false)])]
    = VDict [("flags", VDict [("TOTAL_REVENUE_5CR_FLAG", v1);
                              ("BORROWING_TO_REVENUE_FLAG", v2);
                              ("ISCR_FLAG", v3)])].
Proof.
  exact (probe_returns_after_four_calls nat sample_rules sample_record 0%nat _ eq_refl).
Defined.

(** ** The reach of the handler in [iscr] *)

Lemma catch_unreached (allowed : list exn) (c : outcome value) :
  raises_within allowed c ->
  ~ In KeyError allowed -> ~ In ValueError allowed ->
  catch c except_key_value = c.
Proof.
  intros Hc Hkey Hvalue. destruct c as [e | a]; [| reflexivity].
  rewrite catch_inl. specialize (Hc e eq_refl).
  destruct e; try reflexivity; contradiction.
Qed.

Lemma py_getitem_list_raises (l : list value) (i : value) :
  raises_within [TypeError; IndexError] (py_getitem (VList l) i).
Proof.
  destruct i as [| b | n | f | t | l' | d]; try (intros e [= <-]; cbn; auto);
    (eapply raises_within_weaken; [| apply seq_item_raises]); among.
Qed.

Lemma entry_iscr_raises (entry : value) :
  raises_within [TypeError; AttributeError; IndexError; OverflowError; ZeroDivisionError]
    (entry_iscr entry).
Proof.
  unfold entry_iscr.
  do 3 (apply raises_within_bind;
        [eapply raises_within_weaken; [| apply line_item_raises]; among | intros ?]).
  do 3 (apply raises_within_bind;
        [eapply raises_within_weaken; [| apply py_add_raises]; among | intros ?]).
  eapply raises_within_weaken; [| apply py_truediv_raises]. among.
Qed.

(** X15.  With a list-valued [financials] the [try] of [iscr] catches
    nothing: nothing in its body raises KeyError or ValueError, so
    [iscr] is its body, its failures all propagate and its 0.0 is never
    returned by the handler. *)
Theorem iscr_handler_unreached_on_list
    (data : value) (d : list (string * value)) (l : list value)
    (financial_index : value) :
  data = VDict d ->
  assoc "financials" d = Some (VList l) ->
  iscr data financial_index =
  (financial_entry <- py_getitem (VList l) financial_index ;;
   entry_iscr financial_entry).
Proof.
  intros -> Hfin. unfold iscr.
  cbn -[line_item py_add py_truediv py_getitem]. rewrite Hfin.
  change (catch (financial_entry <- py_getitem (VList l) financial_index ;;
                 entry_iscr financial_entry) except_key_value
          = (financial_entry <- py_getitem (VList l) financial_index ;;
             entry_iscr financial_entry)).
  apply (catch_unreached
           [TypeError; AttributeError; IndexError; OverflowError; ZeroDivisionError]).
  - apply raises_within_bind.
    + eapply raises_within_weaken; [| apply py_getitem_list_raises]. among.
    + apply entry_iscr_raises.
  - cbn. intuition discriminate.
  - cbn. intuition discriminate.
Qed.

Lemma iscr_handler_unreached_on_list_witness :
  iscr sample_record (VInt 0) =
  (financial_entry <-
     py_getitem (VList [entry_with [("netRevenue", VInt 60000000);
                                    ("profitBeforeInterestAndTax", VInt 1000000);
                                    ("depreciation", VInt 0);
                                    ("interestExpenses", VInt 0)]]) (VInt 0) ;;
   entry_iscr financial_entry).
Proof.
  exact (iscr_handler_unreached_on_list
           sample_record
           [("financials", VList [entry_with [("netRevenue", VInt 60000000);
                                              ("profitBeforeInterestAndTax", VInt 1000000);
                                              ("depreciation", VInt 0);
                                              ("interestExpenses", VInt 0)]])]
           _ (VInt 0) eq_refl eq_refl).
Defined.
